(** * Barcode Scan API (backend/main.py): a shallow embedding

    The backend is a FastAPI application over one SQLite table, [scans],
    reached through a SQLAlchemy session.  The handlers of main.py are
    embedded as computations in a small state-and-exception monad over the
    session; the storage engine is embedded by what the statements that
    main.py issues mean on SQLite:

    - [Column(Integer, primary_key=True)] is an alias of the rowid, declared
      without AUTOINCREMENT: an insert takes the largest id in the table
      plus one, and 1 in an empty table;
    - [ScanDB.barcode.contains(q)] is [barcode LIKE '%' || q || '%']; LIKE
      folds the case of the ASCII letters and reads [%] and [_] in [q] as
      wildcards;
    - [ORDER BY scanned_at DESC] fixes the order up to ties; the order of
      ties is the engine's, so the sort is an interface ([Engine]) with one
      instance given at the end of the definitions;
    - [OFFSET n] with a negative [n] skips nothing, and [LIMIT n] with a
      negative [n] returns every row.

    Boundaries of the model: text is a [string], one [ascii] per character,
    free of NUL; timestamps are naive [datetime] values, compared field by
    field as Python and the stored text form both do; integers handed to the
    engine fit its 64-bit range; a rollback and the closing of a session do
    not fail; the bytes of the .xlsx file are not modelled, the workbook that
    is written into them is. *)

From Stdlib Require Import List Bool Arith NArith ZArith Lia String Ascii.
From Stdlib Require Import Sorted Permutation DecimalString.
Import ListNotations.

Local Open Scope string_scope.
Local Open Scope Z_scope.

(** ** Timestamps *)

(** [datetime.datetime], naive. *)
Record datetime := mk_datetime {
  year : N; month : N; day : N;
  hour : N; minute : N; second : N; microsecond : N
}.

Definition dt_fields (d : datetime) : list N :=
  [year d; month d; day d; hour d; minute d; second d; microsecond d].

Fixpoint lex_compare (a b : list N) : comparison :=
  match a, b with
  | [], [] => Eq
  | [], _ :: _ => Lt
  | _ :: _, [] => Gt
  | x :: a', y :: b' =>
      match N.compare x y with
      | Eq => lex_compare a' b'
      | c => c
      end
  end.

Definition dt_compare (a b : datetime) : comparison :=
  lex_compare (dt_fields a) (dt_fields b).

(** [a <= b], [a < b] and [a >= b] on timestamps. *)
Definition dt_leb (a b : datetime) : bool :=
  match dt_compare a b with Gt => false | _ => true end.
Definition dt_ltb (a b : datetime) : bool :=
  match dt_compare a b with Lt => true | _ => false end.
Definition dt_geb (a b : datetime) : bool := dt_leb b a.

Definition dt_le (a b : datetime) : Prop := dt_leb a b = true.
Definition dt_lt (a b : datetime) : Prop := dt_ltb a b = true.

(** The invariant of a [datetime] object (the day is kept within 31; the
    length of the month plays no part below). *)
Definition valid_datetime (d : datetime) : Prop :=
  (1 <= year d <= 9999 /\ 1 <= month d <= 12 /\ 1 <= day d <= 31 /\
   hour d < 24 /\ minute d < 60 /\ second d < 60 /\ microsecond d < 1000000)%N.

(** ** Records *)

(** A row of the table [scans] (class [ScanDB]). *)
Record ScanDB := mk_ScanDB {
  id : Z;
  barcode : string;
  scanned_at : datetime
}.

(** The request body of the create operation (class [ScanCreate]): the
    barcode and nothing else. *)
Record ScanCreate := mk_ScanCreate { sc_barcode : string }.

(** [ScanDB.scanned_at.desc()]: [a] may stand before [b]. *)
Definition desc (a b : ScanDB) : Prop := dt_le (scanned_at b) (scanned_at a).

(** ** The storage engine's sort *)

Class Engine := {
  order_by_scanned_at_desc : list ScanDB -> list ScanDB;
  order_by_perm : forall l, Permutation l (order_by_scanned_at_desc l);
  order_by_sorted : forall l, StronglySorted desc (order_by_scanned_at_desc l)
}.

(** ** Text: SQLite's LIKE *)

(** The case folding LIKE applies: the ASCII capitals only. *)
Definition sqlite3Tolower (c : ascii) : ascii :=
  let n := N_of_ascii c in
  if ((65 <=? n) && (n <=? 90))%N then ascii_of_N (n + 32) else c.

Definition matchAll : ascii := "%"%char.
Definition matchOne : ascii := "_"%char.

(** [like p s]: the text [s] matches the pattern [p]; [%] stands for any run
    of characters, [_] for any one character, every other character for
    itself up to the case of ASCII letters. *)
Fixpoint like (p s : list ascii) : bool :=
  match p with
  | [] => match s with [] => true | _ :: _ => false end
  | c :: p' =>
      if Ascii.eqb c matchAll then
        (fix any (s : list ascii) : bool :=
           like p' s || match s with [] => false | _ :: s' => any s' end) s
      else
        match s with
        | [] => false
        | c2 :: s' =>
            (Ascii.eqb c c2
             || Ascii.eqb (sqlite3Tolower c) (sqlite3Tolower c2)
             || Ascii.eqb c matchOne)
            && like p' s'
        end
  end.

(** [column.contains(q)]: [column LIKE '%' || q || '%']. *)
Definition contains (column q : string) : bool :=
  like (matchAll :: list_ascii_of_string q ++ [matchAll])
       (list_ascii_of_string column).






(** ** Exceptions and the session monad *)

Inductive exn :=
| OperationalError (msg : string)
    (** a failure of the storage engine, raised by SQLAlchemy *)
| InvalidRequestError (msg : string)
    (** the session cannot serve the call *)
| HTTPException (status_code : Z) (detail : string).

Inductive outcome (A : Type) :=
| Return (a : A)
| Raise (e : exn).
Arguments Return {A} a.
Arguments Raise {A} e.

(** The id an insert takes: 1 in an empty table, else one more than the
    largest id present. *)
Definition next_id (t : list ScanDB) : Z :=
  match t with
  | [] => 1
  | r :: t' => fold_right (fun r' m => Z.max (id r') m) (id r) t' + 1
  end.

Definition insert_row (t : list ScanDB) (o : string * datetime) : list ScanDB :=
  t ++ [mk_ScanDB (next_id t) (fst o) (snd o)].

(** A session ([SessionLocal()], autoflush off).
    - [durable]: the table as committed;
    - [txn]: the table as the session's open transaction has it;
    - [new]: objects added and not yet flushed, oldest first;
    - [flushed]: the ids the flushed objects of this session were given,
      in the order the objects were added;
    - [faults]: what the coming calls to the engine will meet, one entry
      per call: [Some msg] fails the call with [msg]; past the end of the
      list every call succeeds. *)
Record Session := mk_Session {
  durable : list ScanDB;
  txn : list ScanDB;
  new : list (string * datetime);
  flushed : list Z;
  faults : list (option string)
}.

Definition M (A : Type) : Type := Session -> outcome A * Session.

Definition ret {A} (a : A) : M A := fun s => (Return a, s).
Definition raise {A} (e : exn) : M A := fun s => (Raise e, s).
Definition bind {A B} (m : M A) (k : A -> M B) : M B :=
  fun s =>
    match m s with
    | (Return a, s') => k a s'
    | (Raise e, s') => (Raise e, s')
    end.
(** [try: m except Exception as e: h e] *)
Definition try_except {A} (m : M A) (h : exn -> M A) : M A :=
  fun s =>
    match m s with
    | (Return a, s') => (Return a, s')
    | (Raise e, s') => h e s'
    end.

Notation "x <- m ;; k" := (bind m (fun x => k))
  (at level 61, m at next level, right associativity).
Notation "m ;;; k" := (bind m (fun _ => k))
  (at level 61, right associativity).

(** One call to the engine: it takes the next entry of [faults]. *)
Definition engine_call : M unit :=
  fun s =>
    match faults s with
    | [] => (Return tt, s)
    | None :: fs =>
        (Return tt, mk_Session (durable s) (txn s) (new s) (flushed s) fs)
    | Some msg :: fs =>
        (Raise (OperationalError msg),
         mk_Session (durable s) (txn s) (new s) (flushed s) fs)
    end.

(** [db.add(obj)]: the object waits in [new]; the result names it by its
    position among the objects of the session. *)
Definition add (o : string * datetime) : M nat :=
  fun s =>
    (Return (List.length (flushed s) + List.length (new s))%nat,
     mk_Session (durable s) (txn s) (new s ++ [o]) (flushed s) (faults s)).

(** The INSERTs of a flush, each new row taking its id from the engine. *)
Fixpoint insert_all (t : list ScanDB) (os : list (string * datetime))
  : list ScanDB * list Z :=
  match os with
  | [] => (t, [])
  | o :: os' =>
      let (t', ids) := insert_all (insert_row t o) os' in
      (t', next_id t :: ids)
  end.

Definition flush : M unit :=
  fun s =>
    match new s with
    | [] => (Return tt, s)
    | _ :: _ =>
        match engine_call s with
        | (Return _, s') =>
            let (t', ids) := insert_all (txn s') (new s') in
            (Return tt,
             mk_Session (durable s') t' [] (flushed s' ++ ids) (faults s'))
        | (Raise e, s') => (Raise e, s')
        end
    end.

(** [db.commit()]: flush, then COMMIT. *)
Definition commit : M unit :=
  flush ;;;
  engine_call ;;;
  fun s => (Return tt,
            mk_Session (txn s) (txn s) (new s) (flushed s) (faults s)).

(** [db.rollback()]: the open transaction and the pending objects are
    dropped; the rollback itself is taken not to fail. *)
Definition rollback : M unit :=
  fun s => (Return tt,
            mk_Session (durable s) (durable s) [] [] (faults s)).

(** [db.refresh(obj)]: the row of the object is read again. *)
Definition refresh (h : nat) : M ScanDB :=
  fun s =>
    match nth_error (flushed s) h with
    | None =>
        (Raise (InvalidRequestError "Instance is not persistent within this Session"), s)
    | Some i =>
        match engine_call s with
        | (Return _, s') =>
            match find (fun r => id r =? i) (txn s') with
            | Some r => (Return r, s')
            | None =>
                (Raise (InvalidRequestError "Could not refresh instance"), s')
            end
        | (Raise e, s') => (Raise e, s')
        end
    end.

(** ** Queries *)

(** A query under construction ([db.query(ScanDB)] and what is chained to
    it); nothing reaches the engine before [all] or [delete]. *)
Record Query := mk_Query {
  q_where : list (ScanDB -> bool);
  q_order_desc : bool;
  q_offset : option Z;
  q_limit : option Z
}.

Definition db_query : Query := mk_Query [] false None None.
Definition filter_ (p : ScanDB -> bool) (q : Query) : Query :=
  mk_Query (q_where q ++ [p]) (q_order_desc q) (q_offset q) (q_limit q).
Definition order_by_desc (q : Query) : Query :=
  mk_Query (q_where q) true (q_offset q) (q_limit q).
Definition offset (n : Z) (q : Query) : Query :=
  mk_Query (q_where q) (q_order_desc q) (Some n) (q_limit q).
Definition limit (n : Z) (q : Query) : Query :=
  mk_Query (q_where q) (q_order_desc q) (q_offset q) (Some n).

Definition selected (q : Query) (r : ScanDB) : bool :=
  forallb (fun p => p r) (q_where q).

(** OFFSET: a negative count skips nothing. *)
Definition apply_offset (o : option Z) (rows : list ScanDB) : list ScanDB :=
  match o with
  | None => rows
  | Some n => skipn (Z.to_nat n) rows
  end.

(** LIMIT: a negative count is no bound. *)
Definition apply_limit (l : option Z) (rows : list ScanDB) : list ScanDB :=
  match l with
  | None => rows
  | Some n => if n <? 0 then rows else firstn (Z.to_nat n) rows
  end.

Section WithEngine.
Context {E : Engine}.

(** The SELECT a query stands for, on the table [t]. *)
Definition eval_query (q : Query) (t : list ScanDB) : list ScanDB :=
  let rows := filter (selected q) t in
  let rows := if q_order_desc q then order_by_scanned_at_desc rows else rows in
  apply_limit (q_limit q) (apply_offset (q_offset q) rows).

(** [query.all()] *)
Definition all (q : Query) : M (list ScanDB) :=
  engine_call ;;;
  fun s => (Return (eval_query q (txn s)), s).

(** [query.delete()]: the rows selected leave the table; the result is
    their number. *)
Definition delete (q : Query) : M Z :=
  engine_call ;;;
  fun s =>
    (Return (Z.of_nat (List.length (filter (selected q) (txn s)))),
     mk_Session (durable s)
                (filter (fun r => negb (selected q r)) (txn s))
                (new s) (flushed s) (faults s)).

(** ** The handlers of main.py *)

(** Truth of an optional argument in an [if]: a [datetime] is always
    true, a string is true unless empty. *)
Definition truthy_datetime (d : option datetime) : option datetime := d.
Definition truthy_str (q : option string) : option string :=
  match q with
  | Some EmptyString => None
  | other => other
  end.

(** POST /scans/ ; [utcnow] is what [datetime.utcnow()] returns at the
    call. *)
Definition create_scan (scan : ScanCreate) (utcnow : datetime) : M ScanDB :=
  let db_scan := (sc_barcode scan, utcnow) in
  h <- add db_scan ;;
  commit ;;;
  db_scan' <- refresh h ;;
  ret db_scan'.

(** GET /scans/ *)
Definition read_scans (skip limit_ : Z) (start_date end_date : option datetime)
    (barcode_query : option string) : M (list ScanDB) :=
  let query := db_query in
  let query :=
    match truthy_datetime start_date with
    | Some start_date => filter_ (fun r => dt_geb (scanned_at r) start_date) query
    | None => query
    end in
  let query :=
    match truthy_datetime end_date with
    | Some end_date => filter_ (fun r => dt_ltb (scanned_at r) end_date) query
    | None => query
    end in
  let query :=
    match truthy_str barcode_query with
    | Some barcode_query => filter_ (fun r => contains (barcode r) barcode_query) query
    | None => query
    end in
  scans <- all (limit limit_ (offset skip (order_by_desc query))) ;;
  ret scans.

(** *** Export *)

(** A value in a dict, a DataFrame or a worksheet cell. *)
Inductive value :=
| VInt (z : Z)
| VStr (s : string)
| VTime (t : datetime).

(** A number in decimal, filled with zeros on the left up to [width]
    characters ([%02d], [%04d]). *)
Fixpoint zeros (k : nat) : string :=
  match k with
  | O => EmptyString
  | S k' => String "0" (zeros k')
  end.
Definition zero_pad (width : nat) (n : N) : string :=
  let s := NilZero.string_of_uint (N.to_uint n) in
  zeros (width - String.length s) ++ s.

(** [strftime('%Y-%m-%d %H:%M:%S')] *)
Definition strftime (t : datetime) : string :=
  zero_pad 4 (year t) ++ "-" ++ zero_pad 2 (month t) ++ "-" ++
  zero_pad 2 (day t) ++ " " ++ zero_pad 2 (hour t) ++ ":" ++
  zero_pad 2 (minute t) ++ ":" ++ zero_pad 2 (second t).



Record DataFrame := mk_DataFrame {
  columns : list string;
  data : list (list value)
}.

(** [pd.DataFrame(dicts)]: the columns are the keys in their order. *)
Definition pd_DataFrame (dicts : list (list (string * value))) : DataFrame :=
  mk_DataFrame match dicts with [] => [] | d :: _ => map fst d end
               (map (map snd) dicts).

Definition df_empty (df : DataFrame) : bool :=
  match columns df, data df with
  | _ :: _, _ :: _ => false
  | _, _ => true
  end.

(** [df[col] = df[col].dt.strftime(...)]: the timestamps of the column
    become text. *)
Definition dt_strftime_value (v : value) : value :=
  match v with
  | VTime t => VStr (strftime t)
  | other => other
  end.
Definition df_strftime (col : string) (df : DataFrame) : DataFrame :=
  mk_DataFrame (columns df)
    (map (fun row =>
            map (fun cv => if String.eqb (fst cv) col
                           then dt_strftime_value (snd cv) else snd cv)
                (combine (columns df) row))
         (data df)).

(** A worksheet: its title and its rows of cells, the header first. *)
Record Worksheet := mk_Worksheet {
  title : string;
  rows : list (list value)
}.

(** [df.to_excel(writer, index=False, sheet_name=name)] *)
Definition to_excel (df : DataFrame) (name : string) : Worksheet :=
  mk_Worksheet name (map VStr (columns df) :: data df).

Record StreamingResponse := mk_StreamingResponse {
  workbook : list Worksheet;
  headers : list (string * string);
  media_type : string
}.

(** The double quote character, as text. *)
Definition dquote : string := String (ascii_of_N 34) EmptyString.

(** GET /scans/export/ *)
Definition export_scans (start_date end_date : option datetime)
    (barcode_query : option string) : M StreamingResponse :=
  let query := db_query in
  let query :=
    match truthy_datetime start_date with
    | Some start_date => filter_ (fun r => dt_geb (scanned_at r) start_date) query
    | None => query
    end in
  let query :=
    match truthy_datetime end_date with
    | Some end_date => filter_ (fun r => dt_ltb (scanned_at r) end_date) query
    | None => query
    end in
  let query :=
    match truthy_str barcode_query with
    | Some barcode_query => filter_ (fun r => contains (barcode r) barcode_query) query
    | None => query
    end in
  scans_data <- all (order_by_desc query) ;;
  match scans_data with
  | [] => raise (HTTPException 404 "No scans found for the given criteria.")
  | _ :: _ =>
      let data_for_df :=
        map (fun s => [("id", VInt (id s)); ("barcode", VStr (barcode s));
                       ("scanned_at", VTime (scanned_at s))]) scans_data in
      let df := pd_DataFrame data_for_df in
      let df := if negb (df_empty df) then df_strftime "scanned_at" df else df in
      let output := [to_excel df "Scans"] in
      let headers :=
        [("Content-Disposition",
          "attachment; filename=" ++ dquote ++ "scans_export.xlsx" ++ dquote)] in
      ret (mk_StreamingResponse output headers
             "application/vnd.openxmlformats-officedocument.spreadsheetml.sheet")
  end.

(** *** Delete all *)

Record JSONResponse := mk_JSONResponse {
  content : list (string * string);
  status_code : Z
}.

(** [str(e)] *)
Definition str_exn (e : exn) : string :=
  match e with
  | OperationalError msg => msg
  | InvalidRequestError msg => msg
  | HTTPException c d => NilZero.string_of_int (Z.to_int c) ++ ": " ++ d
  end.

(** [f"{n}"] for an integer. *)
Definition str_int (n : Z) : string := NilZero.string_of_int (Z.to_int n).

(** DELETE /scans/ *)
Definition delete_all_scans : M JSONResponse :=
  try_except
    (num_deleted <- delete db_query ;;
     commit ;;;
     ret (mk_JSONResponse
            [("message",
              "Successfully deleted " ++ str_int num_deleted ++ " scan records.")]
            200))
    (fun e =>
       rollback ;;;
       raise (HTTPException 500 ("Failed to delete records: " ++ str_exn e))).

(** *** One request *)

(** [get_db] around a handler: a fresh session on the stored table, the
    handler, and the session closed whatever the outcome.  The result is
    the handler's outcome and the table as stored afterwards. *)
Definition SessionLocal (store : list ScanDB) (fs : list (option string))
  : Session := mk_Session store store [] [] fs.

Definition close (s : Session) : list ScanDB := durable s.

Definition request {A} (handler : M A) (store : list ScanDB)
    (fs : list (option string)) : outcome A * list ScanDB :=
  let (r, s) := handler (SessionLocal store fs) in
  (r, close s).

End WithEngine.

(** ** What the specification calls the filtered result set *)

(** Every filter supplied holds of the record. *)
Definition passes (start_date end_date : option datetime)
    (barcode_query : option string) (r : ScanDB) : bool :=
  match start_date with Some t => dt_geb (scanned_at r) t | None => true end
  && match end_date with Some t => dt_ltb (scanned_at r) t | None => true end
  && match barcode_query with
     | Some EmptyString | None => true
     | Some q => contains (barcode r) q
     end.

Definition filtered (start_date end_date : option datetime)
    (barcode_query : option string) (store : list ScanDB) : list ScanDB :=
  filter (passes start_date end_date barcode_query) store.

(** The page a list request shows of a table. *)
Definition page {E : Engine} (skip limit_ : Z) (start_date end_date : option datetime)
    (barcode_query : option string) (t : list ScanDB) : list ScanDB :=
  apply_limit (Some limit_)
    (apply_offset (Some skip)
       (order_by_scanned_at_desc (filtered start_date end_date barcode_query t))).

(** The row the export shows for a record. *)
Definition export_row (s : ScanDB) : list value :=
  [VInt (id s); VStr (barcode s); VStr (strftime (scanned_at s))].

(** The words of the specification for the export: not found on an empty
    result; else one sheet, the header [id, barcode, scanned_at] and one
    row per record, in the order given. *)
Definition export_headers : list (string * string) :=
  [("Content-Disposition",
    "attachment; filename=" ++ dquote ++ "scans_export.xlsx" ++ dquote)].
Definition export_header_row : list value :=
  [VStr "id"; VStr "barcode"; VStr "scanned_at"].
Definition export_answer (scans_data : list ScanDB) : outcome StreamingResponse :=
  match scans_data with
  | [] => Raise (HTTPException 404 "No scans found for the given criteria.")
  | _ :: _ =>
      Return (mk_StreamingResponse
                [mk_Worksheet "Scans" (export_header_row :: map export_row scans_data)]
                export_headers
                "application/vnd.openxmlformats-officedocument.spreadsheetml.sheet")
  end.

(** The words of the specification for delete-all: the answer
    [{message: "Successfully deleted N scan records."}] with status 200. *)
Definition deleted_message (n : nat) : JSONResponse :=
  mk_JSONResponse
    [("message",
      "Successfully deleted " ++ str_int (Z.of_nat n) ++ " scan records.")]
    200.


(** ** An engine: stable insertion sort *)

Fixpoint insert_desc (r : ScanDB) (l : list ScanDB) : list ScanDB :=
  match l with
  | [] => [r]
  | x :: l' =>
      if dt_leb (scanned_at x) (scanned_at r) then r :: x :: l'
      else x :: insert_desc r l'
  end.

Definition sort_desc (l : list ScanDB) : list ScanDB :=
  fold_right insert_desc [] l.

(** ** Histories of requests *)

(** A request to one of the four operations on the table. *)
Inductive Op :=
| OpCreate (scan : ScanCreate) (utcnow : datetime)
| OpList (skip limit_ : Z) (start_date end_date : option datetime)
    (barcode_query : option string)
| OpExport (start_date end_date : option datetime)
    (barcode_query : option string)
| OpDeleteAll.

(** The table stored after the request, met by the failures [fs]. *)
Definition after {E : Engine} (op : Op) (fs : list (option string))
    (store : list ScanDB) : list ScanDB :=
  match op with
  | OpCreate scan utcnow => snd (request (create_scan scan utcnow) store fs)
  | OpList skip limit_ sd ed bq =>
      snd (request (read_scans skip limit_ sd ed bq) store fs)
  | OpExport sd ed bq => snd (request (export_scans sd ed bq) store fs)
  | OpDeleteAll => snd (request delete_all_scans store fs)
  end.

(** The tables that requests can leave behind, starting from the empty
    table that [create_all] makes. *)
Inductive reachable {E : Engine} : list ScanDB -> Prop :=
| reachable_empty : reachable []
| reachable_after op fs store :
    reachable store -> reachable (after op fs store).

(** The characters of a text, and a text up to the case of ASCII
    letters. *)
Definition folded (s : string) : list ascii :=
  map sqlite3Tolower (list_ascii_of_string s).

(** The number a text of decimal digits writes. *)
Definition digits_value (s : string) : N :=
  fold_left (fun v c => (10 * v + (N_of_ascii c - 48))%N)
            (list_ascii_of_string s) 0%N.

(** ** Sample tables *)

(** A time of day on 1 March 2024. *)
Definition at_ (h mi s : N) : datetime := mk_datetime 2024 3 1 h mi s 0.

(** The scenario of the specification: A1, A2 and B1 scanned in turn. *)
Definition three_scans : list ScanDB :=
  [mk_ScanDB 1 "A1" (at_ 10 0 0);
   mk_ScanDB 2 "A2" (at_ 11 0 0);
   mk_ScanDB 3 "B1" (at_ 12 0 0)].

(** A hundred and one scans of one barcode at one time. *)
Definition many_scans : list ScanDB :=
  map (fun i => mk_ScanDB (Z.of_nat i) "A" (at_ 12 0 0)) (seq 1 101).

(* ================================================================== *)
(** * Properties *)

(** ** The order on timestamps *)

Lemma lex_compare_refl a : lex_compare a a = Eq.
Proof.
  induction a as [|x a IH]; simpl; [reflexivity|].
  now rewrite N.compare_refl.
Qed.

Lemma lex_compare_antisym a : forall b,
  lex_compare b a = CompOpp (lex_compare a b).
Proof.
  induction a as [|x a IH]; intros [|y b]; simpl; try reflexivity.
  rewrite (N.compare_antisym y x).
  destruct (N.compare y x); simpl; auto.
Qed.

Lemma lex_compare_le_trans a : forall b c,
  lex_compare a b <> Gt -> lex_compare b c <> Gt -> lex_compare a c <> Gt.
Proof.
  induction a as [|x a IH]; intros [|y b] [|z c]; simpl; try congruence.
  destruct (N.compare_spec x y), (N.compare_spec y z), (N.compare_spec x z);
    subst; try congruence; try lia; eauto.
Qed.

Lemma dt_leb_refl a : dt_leb a a = true.
Proof. unfold dt_leb, dt_compare. now rewrite lex_compare_refl. Qed.

Lemma dt_leb_total a b : dt_leb a b = false -> dt_leb b a = true.
Proof.
  unfold dt_leb, dt_compare.
  rewrite (lex_compare_antisym (dt_fields a) (dt_fields b)).
  destruct (lex_compare (dt_fields a) (dt_fields b)); simpl; congruence.
Qed.

Lemma dt_leb_trans a b c :
  dt_leb a b = true -> dt_leb b c = true -> dt_leb a c = true.
Proof.
  unfold dt_leb, dt_compare. intros H1 H2.
  assert (lex_compare (dt_fields a) (dt_fields c) <> Gt).
  { apply lex_compare_le_trans with (dt_fields b).
    - destruct (lex_compare (dt_fields a) (dt_fields b)); congruence.
    - destruct (lex_compare (dt_fields b) (dt_fields c)); congruence. }
  destruct (lex_compare (dt_fields a) (dt_fields c)); congruence.
Qed.

Lemma dt_ltb_leb a b : dt_ltb a b = negb (dt_leb b a).
Proof.
  unfold dt_ltb, dt_leb, dt_compare.
  rewrite (lex_compare_antisym (dt_fields a) (dt_fields b)).
  destruct (lex_compare (dt_fields a) (dt_fields b)); reflexivity.
Qed.

Lemma dt_ltb_irrefl a : dt_ltb a a = false.
Proof. rewrite dt_ltb_leb, dt_leb_refl. reflexivity. Qed.

(** ** The insertion sort is an engine *)

Lemma insert_desc_perm r l : Permutation (r :: l) (insert_desc r l).
Proof.
  induction l as [|x l IH]; simpl; [reflexivity|].
  destruct (dt_leb (scanned_at x) (scanned_at r)); [reflexivity|].
  rewrite perm_swap. now apply perm_skip.
Qed.

Lemma sort_desc_perm l : Permutation l (sort_desc l).
Proof.
  induction l as [|r l IH]; simpl; [constructor|].
  rewrite <- insert_desc_perm. now apply perm_skip.
Qed.

Lemma insert_desc_sorted r l :
  StronglySorted desc l -> StronglySorted desc (insert_desc r l).
Proof.
  induction 1 as [|x l Hs IH Hx]; simpl.
  - repeat constructor.
  - destruct (dt_leb (scanned_at x) (scanned_at r)) eqn:Hc.
    + constructor; [now constructor|].
      constructor; [exact Hc|].
      eapply Forall_impl; [|exact Hx].
      intros y Hy. unfold desc, dt_le in *. eapply dt_leb_trans; eauto.
    + constructor; [exact IH|].
      rewrite <- insert_desc_perm.
      constructor; [|exact Hx].
      apply dt_leb_total in Hc. exact Hc.
Qed.

Lemma sort_desc_sorted l : StronglySorted desc (sort_desc l).
Proof.
  induction l as [|r l IH]; simpl; [constructor|].
  now apply insert_desc_sorted.
Qed.

Definition insertion_engine : Engine := {|
  order_by_scanned_at_desc := sort_desc;
  order_by_perm := sort_desc_perm;
  order_by_sorted := sort_desc_sorted
|}.

(** ** LIKE on a pattern without wildcards *)

Lemma like_matchAll_cons p s :
  like (matchAll :: p) s =
  like p s || match s with [] => false | _ :: s' => like (matchAll :: p) s' end.
Proof. destruct s; reflexivity. Qed.





(** ** The requests, computed *)

Section Properties.
Context {E : Engine}.

Lemma read_scans_run skip limit_ sd ed bq s :
  read_scans skip limit_ sd ed bq s =
  match engine_call s with
  | (Return _, s') => (Return (page skip limit_ sd ed bq (txn s')), s')
  | (Raise e, s') => (Raise e, s')
  end.
Proof.
  unfold read_scans, all, ret. cbv beta delta [bind]; cbv zeta.
  destruct (engine_call s) as [[[]|e] s']; [|reflexivity].
  unfold page, eval_query, filtered; simpl.
  match goal with
  | |- context [filter (selected ?Q) ?t] =>
      rewrite (filter_ext (selected Q) (passes sd ed bq)); [reflexivity|]
  end.
  intros r. unfold passes, truthy_datetime, truthy_str.
  destruct sd, ed, bq as [[|c q]|];
    unfold selected; simpl; rewrite ?andb_true_r, ?andb_assoc; reflexivity.
Qed.

Lemma request_read_scans skip limit_ sd ed bq store :
  request (read_scans skip limit_ sd ed bq) store [] =
  (Return (page skip limit_ sd ed bq store), store).
Proof. unfold request. rewrite read_scans_run. reflexivity. Qed.

Lemma all_run q s :
  all q s =
  match engine_call s with
  | (Return _, s') => (Return (eval_query q (txn s')), s')
  | (Raise e, s') => (Raise e, s')
  end.
Proof.
  unfold all, bind. destruct (engine_call s) as [[[]|e] s']; reflexivity.
Qed.

Lemma eval_order_by_desc sd ed bq query t :
  q_offset query = None -> q_limit query = None ->
  (forall r, selected query r = passes sd ed bq r) ->
  eval_query (order_by_desc query) t =
  order_by_scanned_at_desc (filtered sd ed bq t).
Proof.
  intros Ho Hl Hs. unfold eval_query, order_by_desc; cbn [q_where q_order_desc q_offset q_limit].
  rewrite Ho, Hl. unfold apply_limit, apply_offset, filtered.
  f_equal. apply filter_ext. intros r. rewrite <- Hs. reflexivity.
Qed.

Lemma export_sheet x l :
  let scans_data := x :: l in
  let df :=
    pd_DataFrame
      (map (fun s => [("id", VInt (id s)); ("barcode", VStr (barcode s));
                      ("scanned_at", VTime (scanned_at s))]) scans_data) in
  to_excel (if negb (df_empty df) then df_strftime "scanned_at" df else df) "Scans"
  = mk_Worksheet "Scans" (export_header_row :: map export_row scans_data).
Proof.
  cbv zeta. unfold to_excel, export_header_row. simpl. do 3 f_equal.
  rewrite !map_map. apply map_ext. reflexivity.
Qed.

Lemma export_scans_run sd ed bq s :
  export_scans sd ed bq s =
  match engine_call s with
  | (Return _, s') =>
      (export_answer (order_by_scanned_at_desc (filtered sd ed bq (txn s'))), s')
  | (Raise e, s') => (Raise e, s')
  end.
Proof.
  unfold export_scans. cbv zeta.
  match goal with
  | |- context [order_by_desc ?Q] => set (query := Q)
  end.
  assert (Hq : q_offset query = None /\ q_limit query = None /\
               forall r, selected query r = passes sd ed bq r).
  { unfold query, passes, truthy_datetime, truthy_str.
    destruct sd, ed, bq as [[|c q]|]; repeat split; intros r;
      unfold selected; simpl; rewrite ?andb_true_r, ?andb_assoc; reflexivity. }
  destruct Hq as (Ho & Hl & Hs).
  unfold bind. rewrite all_run.
  destruct (engine_call s) as [[[]|e] s']; [|reflexivity].
  rewrite (eval_order_by_desc sd ed bq) by assumption.
  destruct (order_by_scanned_at_desc (filtered sd ed bq (txn s'))) as [|x l];
    [reflexivity|].
  unfold ret, export_answer. rewrite export_sheet. reflexivity.
Qed.


(** ** Pages of a sorted list *)

Lemma apply_offset_incl o l r : In r (apply_offset o l) -> In r l.
Proof.
  destruct o as [n|]; simpl; [|auto].
  intros H. rewrite <- (firstn_skipn (Z.to_nat n) l).
  apply in_or_app. now right.
Qed.

Lemma apply_limit_incl o l r : In r (apply_limit o l) -> In r l.
Proof.
  destruct o as [n|]; simpl; [|auto].
  destruct (n <? 0); [auto|].
  intros H. rewrite <- (firstn_skipn (Z.to_nat n) l).
  apply in_or_app. now left.
Qed.





Lemma order_by_length l :
  List.length (order_by_scanned_at_desc l) = List.length l.
Proof. symmetry. apply Permutation_length, order_by_perm. Qed.


Lemma page_In skip limit_ sd ed bq t r :
  In r (page skip limit_ sd ed bq t) ->
  In r t /\ passes sd ed bq r = true.
Proof.
  intros H. unfold page in H.
  apply apply_limit_incl, apply_offset_incl in H.
  apply (Permutation_in _ (Permutation_sym (order_by_perm _))) in H.
  unfold filtered in H. now apply filter_In in H.
Qed.

(** A page that pagination does not cut is the whole sorted result. *)
Lemma page_whole skip limit_ sd ed bq t :
  skip <= 0 ->
  limit_ < 0 \/ Z.of_nat (List.length (filtered sd ed bq t)) <= limit_ ->
  page skip limit_ sd ed bq t =
  order_by_scanned_at_desc (filtered sd ed bq t).
Proof.
  intros Hs Hl. unfold page, apply_limit, apply_offset.
  replace (Z.to_nat skip) with O by lia. simpl.
  destruct (Z.ltb_spec limit_ 0) as [|Hn]; [reflexivity|].
  apply firstn_all2. rewrite order_by_length. lia.
Qed.

(** ** Listing *)


(** C2, amended: listing with [start_date = T1] and [end_date = T2]
    returns only stored records with [T1 <= scanned_at < T2], never one
    with [scanned_at = T2]; and when pagination does not cut the result
    ([skip] at most 0, and [limit] negative or at least the number of such
    records) it returns exactly those records, each once. *)
Theorem read_scans_date_range store skip limit_ T1 T2 :
  let in_range r := dt_leb T1 (scanned_at r) && dt_ltb (scanned_at r) T2 in
  exists scans,
    request (read_scans skip limit_ (Some T1) (Some T2) None) store []
      = (Return scans, store)
    /\ (forall r, In r scans ->
          In r store /\ dt_le T1 (scanned_at r) /\ dt_lt (scanned_at r) T2)
    /\ (forall r, In r scans -> scanned_at r <> T2)
    /\ (skip <= 0 ->
        limit_ < 0 \/ Z.of_nat (List.length (filter in_range store)) <= limit_ ->
        Permutation scans (filter in_range store)).
Proof.
  intros in_range.
  assert (Hf : forall t, filtered (Some T1) (Some T2) None t = filter in_range t).
  { intros t. apply filter_ext. intros r. unfold passes, in_range, dt_geb.
    apply andb_true_r. }
  exists (page skip limit_ (Some T1) (Some T2) None store).
  split; [apply request_read_scans|].
  assert (Hin : forall r, In r (page skip limit_ (Some T1) (Some T2) None store) ->
                 In r store /\ dt_le T1 (scanned_at r) /\ dt_lt (scanned_at r) T2).
  { intros r Hr. apply page_In in Hr. destruct Hr as [Hs Hp].
    unfold passes, dt_geb in Hp. rewrite andb_true_r in Hp.
    apply andb_true_iff in Hp. destruct Hp. repeat split; assumption. }
  split; [exact Hin|]. split.
  - intros r Hr Heq. apply Hin in Hr. destruct Hr as (_ & _ & Hlt).
    unfold dt_lt in Hlt. rewrite Heq, dt_ltb_irrefl in Hlt. discriminate.
  - intros Hs Hl. rewrite page_whole; [|exact Hs|now rewrite Hf].
    rewrite Hf. symmetry. apply order_by_perm.
Qed.


(** ** Export *)


(** ** Reads leave the table alone *)

(** C10: whatever the stored table, the arguments and the storage
    failures met, the table stored after a list request and after an
    export request, answered or failed, is the table stored before. *)
Theorem list_and_export_preserve_store store fs skip limit_ sd ed bq :
  snd (request (read_scans skip limit_ sd ed bq) store fs) = store
  /\ snd (request (export_scans sd ed bq) store fs) = store.
Proof.
  unfold request. rewrite read_scans_run, export_scans_run.
  unfold engine_call, SessionLocal; simpl.
  destruct fs as [|[msg|] fs]; simpl; split; reflexivity.
Qed.

End Properties.

(** ** Create and delete-all, computed *)

Lemma fold_max_ge a t :
  a <= fold_right (fun r' m => Z.max (id r') m) a t
  /\ forall r, In r t -> id r <= fold_right (fun r' m => Z.max (id r') m) a t.
Proof.
  induction t as [|x t [IHa IHt]]; simpl.
  - split; [lia|tauto].
  - split; [lia|]. intros r [<-|Hr]; [lia|]. specialize (IHt r Hr). lia.
Qed.

Lemma next_id_gt t r : In r t -> id r < next_id t.
Proof.
  destruct t as [|x t]; [contradiction|]. unfold next_id.
  destruct (fold_max_ge (id x) t) as [Ha Ht].
  intros [<-|Hr]; [lia|]. specialize (Ht r Hr). lia.
Qed.

Lemma find_inserted t b d :
  find (fun r => id r =? next_id t) (insert_row t (b, d))
  = Some (mk_ScanDB (next_id t) b d).
Proof.
  unfold insert_row; simpl.
  assert (H : forall l, (forall r, In r l -> id r < next_id t) ->
            find (fun r => id r =? next_id t) (l ++ [mk_ScanDB (next_id t) b d])
            = Some (mk_ScanDB (next_id t) b d)).
  { induction l as [|x l IH]; intros Hl; simpl.
    - now rewrite Z.eqb_refl.
    - destruct (Z.eqb_spec (id x) (next_id t)) as [Heq|_].
      + specialize (Hl x (or_introl eq_refl)). lia.
      + apply IH. intros r Hr. apply Hl. now right. }
  apply H. intros r. apply next_id_gt.
Qed.

Lemma request_create_scan scan utcnow store :
  request (create_scan scan utcnow) store [] =
  (Return (mk_ScanDB (next_id store) (sc_barcode scan) utcnow),
   store ++ [mk_ScanDB (next_id store) (sc_barcode scan) utcnow])%list.
Proof.
  unfold request, create_scan, SessionLocal, commit, flush, add, refresh, ret.
  cbv beta delta [bind]; simpl.
  change (store ++ [mk_ScanDB (next_id store) (sc_barcode scan) utcnow])%list
    with (insert_row store (sc_barcode scan, utcnow)).
  rewrite find_inserted. reflexivity.
Qed.

Lemma filter_selected_db_query t :
  filter (selected db_query) t = t
  /\ filter (fun r => negb (selected db_query r)) t = [].
Proof.
  induction t as [|x t [IH1 IH2]]; simpl; [auto|].
  unfold selected in *; simpl in *. now rewrite IH1, IH2.
Qed.

Lemma request_delete_all_scans store fs :
  request delete_all_scans store fs =
  match fs with
  | Some msg :: _ | None :: Some msg :: _ =>
      (Raise (HTTPException 500 ("Failed to delete records: " ++ msg)), store)
  | _ => (Return (deleted_message (List.length store)), [])
  end.
Proof.
  unfold request, delete_all_scans, try_except, delete, commit, flush,
    rollback, raise, ret, SessionLocal, deleted_message.
  cbv beta delta [bind].
  destruct (filter_selected_db_query store) as [H1 H2].
  assert (H3 : filter (fun _ : ScanDB => false) store = []).
  { clear. induction store; simpl; auto. }
  destruct fs as [|[msg|] [|[msg'|] fs]]; simpl; rewrite ?H1, ?H2, ?H3;
    reflexivity.
Qed.

Section Writes.
Context {E : Engine}.

(** ** Create *)

(** C4: for every barcode submitted, the create operation, met by no
    storage failure, stores one more record, whose [scanned_at] is the
    server time read at the call (the request carries a barcode and nothing
    else) and whose id is the one the storage assigns, and returns that
    stored record in full. *)
Theorem create_scan_stamps_server_time store scan utcnow :
  exists r,
    request (create_scan scan utcnow) store [] = (Return r, (store ++ [r])%list)
    /\ barcode r = sc_barcode scan
    /\ scanned_at r = utcnow
    /\ id r = next_id store.
Proof.
  exists (mk_ScanDB (next_id store) (sc_barcode scan) utcnow).
  rewrite request_create_scan. repeat split.
Qed.

(** C5, amended: for every barcode and every stored table, creating a scan
    and then listing with no filters, skip 0 and a limit that does not cut
    the result (negative, or above the number of records stored before)
    includes the created record, with that exact barcode, and its id is
    strictly greater than the id of every record stored when it was
    created. *)
Theorem create_then_list store scan utcnow limit_ :
  limit_ < 0 \/ Z.of_nat (List.length store) < limit_ ->
  exists r store' scans,
    request (create_scan scan utcnow) store [] = (Return r, store')
    /\ request (read_scans 0 limit_ None None None) store' [] = (Return scans, store')
    /\ In r scans
    /\ barcode r = sc_barcode scan
    /\ (forall r', In r' store -> id r' < id r).
Proof.
  intros Hl.
  set (r := mk_ScanDB (next_id store) (sc_barcode scan) utcnow).
  exists r, (store ++ [r])%list, (page 0 limit_ None None None (store ++ [r])%list).
  split; [apply request_create_scan|].
  split; [apply request_read_scans|].
  assert (Hf : filtered None None None (store ++ [r])%list = (store ++ [r])%list).
  { unfold filtered. clear. induction (store ++ [r])%list as [|x l IH]; simpl;
      [reflexivity|now rewrite IH]. }
  split.
  - rewrite page_whole, Hf.
    + apply (Permutation_in _ (order_by_perm _)).
      apply in_or_app. right. now left.
    + lia.
    + rewrite Hf, length_app. simpl. lia.
  - split; [reflexivity|]. intros r' Hr'. simpl. now apply next_id_gt.
Qed.

(** ** Delete-all *)

(** C6: when the delete-all operation succeeds, its message carries the
    number of records stored just before it, and a list request with no
    filters that follows returns the empty sequence, whatever its
    pagination. *)
Theorem delete_all_then_list store fs resp store' :
  request delete_all_scans store fs = (Return resp, store') ->
  resp = deleted_message (List.length store)
  /\ forall skip limit_,
       request (read_scans skip limit_ None None None) store' []
       = (Return [], store').
Proof.
  rewrite request_delete_all_scans.
  assert (He : forall skip limit_,
             request (read_scans skip limit_ None None None) [] [] = (Return [], [])).
  { intros skip limit_. rewrite request_read_scans. do 2 f_equal.
    unfold page, filtered; simpl.
    assert (Hn : order_by_scanned_at_desc [] = []).
    { apply Permutation_nil, order_by_perm. }
    rewrite Hn. unfold apply_offset, apply_limit.
    rewrite skipn_nil, firstn_nil. now destruct (limit_ <? 0). }
  destruct fs as [|[msg|] [|[msg'|] fs]]; intros H; inversion H; subst;
    split; auto.
Qed.


End Writes.

(** ** The shape of a formatted timestamp *)


Lemma below_forallb (P : N -> bool) (k : N) :
  forallb P (map N.of_nat (seq 0 (N.to_nat k))) = true ->
  forall n, (n < k)%N -> P n = true.
Proof.
  rewrite forallb_forall. intros H n Hn. apply H.
  rewrite in_map_iff. exists (N.to_nat n). split; [apply N2Nat.id|].
  apply in_seq. lia.
Qed.




Section ExportSheet.
Context {E : Engine}.


End ExportSheet.

(* ================================================================== *)
(** * Concrete runs, on the insertion-sort engine *)


(** C2, amended, on the sample table: the range from 10:00 to 12:00 holds
    A1 and A2 and leaves out B1, scanned at 12:00. *)
Lemma read_scans_date_range_witness :
  exists scans,
    request (read_scans (E := insertion_engine) 0 100
               (Some (at_ 10 0 0)) (Some (at_ 12 0 0)) None)
      three_scans [] = (Return scans, three_scans)
    /\ Permutation scans
         [mk_ScanDB 1 "A1" (at_ 10 0 0); mk_ScanDB 2 "A2" (at_ 11 0 0)].
Proof.
  destruct (read_scans_date_range (E := insertion_engine)
              three_scans 0 100 (at_ 10 0 0) (at_ 12 0 0))
    as (scans & Hrun & _ & _ & Hall).
  exists scans. split; [exact Hrun|].
  apply Hall; [lia|right; vm_compute; discriminate].
Defined.





(** C5, amended, on the sample table: a fourth scan. *)
Lemma create_then_list_witness :
  (100 < 0 \/ Z.of_nat (List.length three_scans) < 100)
  /\ exists r store' scans,
       request (create_scan (mk_ScanCreate "C7") (at_ 13 0 0)) three_scans []
         = (Return r, store')
       /\ request (read_scans (E := insertion_engine) 0 100 None None None)
            store' [] = (Return scans, store')
       /\ In r scans
       /\ barcode r = "C7"
       /\ (forall r', In r' three_scans -> id r' < id r).
Proof.
  assert (H : 100 < 0 \/ Z.of_nat (List.length three_scans) < 100)
    by (right; simpl; lia).
  split; [exact H|].
  exact (create_then_list (E := insertion_engine) three_scans
           (mk_ScanCreate "C7") (at_ 13 0 0) 100 H).
Defined.

(** C6 on the sample table: three records deleted. *)
Lemma delete_all_then_list_witness :
  request delete_all_scans three_scans [] = (Return (deleted_message 3), [])
  /\ deleted_message 3
     = mk_JSONResponse [("message", "Successfully deleted 3 scan records.")] 200
  /\ forall skip limit_,
       request (read_scans (E := insertion_engine) skip limit_ None None None)
         [] [] = (Return [], []).
Proof.
  assert (H : request delete_all_scans three_scans []
              = (Return (deleted_message 3), [])) by reflexivity.
  split; [exact H|]. split; [reflexivity|].
  exact (proj2 (delete_all_then_list (E := insertion_engine)
                  three_scans [] (deleted_message 3) [] H)).
Defined.


(** ** Where the claims as written fail *)


(** The wildcards are read as such: the filter [_] returns a record whose
    barcode has no underscore. *)
Example barcode_filter_reads_wildcards :
  request (read_scans (E := insertion_engine) 0 100 None None (Some "_"))
    [mk_ScanDB 1 "ABC" (at_ 10 0 0)] []
  = (Return [mk_ScanDB 1 "ABC" (at_ 10 0 0)], [mk_ScanDB 1 "ABC" (at_ 10 0 0)]).
Proof. vm_compute; reflexivity. Qed.

(** C2 as written fails: of a hundred and one records inside the range, a
    list request with the default pagination (skip 0, limit 100) returns a
    hundred; the record with id 101 is in the range and is not returned. *)
Lemma date_range_page_is_cut :
  In (mk_ScanDB 101 "A" (at_ 12 0 0)) many_scans
  /\ dt_le (at_ 12 0 0) (at_ 12 0 0) /\ dt_lt (at_ 12 0 0) (at_ 13 0 0)
  /\ exists scans,
       request (read_scans (E := insertion_engine) 0 100
                  (Some (at_ 12 0 0)) (Some (at_ 13 0 0)) None)
         many_scans [] = (Return scans, many_scans)
       /\ List.length scans = 100%nat
       /\ ~ In (mk_ScanDB 101 "A" (at_ 12 0 0)) scans.
Proof.
  split.
  { unfold many_scans. apply in_map_iff. exists 101%nat.
    split; [reflexivity|]. apply in_seq. lia. }
  split; [reflexivity|]. split; [reflexivity|].
  eexists. split; [rewrite request_read_scans; reflexivity|].
  split; [vm_compute; reflexivity|].
  intros Hin.
  assert (Hex : existsb (fun r => id r =? 101)
                  (page (E := insertion_engine) 0 100
                     (Some (at_ 12 0 0)) (Some (at_ 13 0 0)) None many_scans)
                = true).
  { apply existsb_exists. eexists. split; [exact Hin|reflexivity]. }
  vm_compute in Hex. discriminate Hex.
Qed.

(** C5 as written fails: a scan created after a delete-all takes the id 1
    again, the id of the scan created before the delete-all. *)
Lemma id_reused_after_delete_all :
  exists r1 store1 resp store2 r2 store3,
    request (create_scan (mk_ScanCreate "A1") (at_ 10 0 0)) [] []
      = (Return r1, store1)
    /\ request delete_all_scans store1 [] = (Return resp, store2)
    /\ request (create_scan (mk_ScanCreate "B1") (at_ 11 0 0)) store2 []
      = (Return r2, store3)
    /\ id r1 = 1 /\ id r2 = 1 /\ ~ id r1 < id r2.
Proof.
  do 6 eexists.
  split; [vm_compute; reflexivity|].
  split; [vm_compute; reflexivity|].
  split; [vm_compute; reflexivity|].
  split; [reflexivity|]. split; [reflexivity|]. simpl. lia.
Qed.

(* ================================================================== *)
(** * Further properties of the handlers *)

(** ** Create under storage failures *)

(** The request of [create_scan] for every course of the three calls it
    makes to the engine: the INSERT of the flush, the COMMIT, the SELECT of
    the refresh. *)
Lemma request_create_scan_faults scan utcnow store fs :
  let row := mk_ScanDB (next_id store) (sc_barcode scan) utcnow in
  request (create_scan scan utcnow) store fs =
  match fs with
  | Some msg :: _ | None :: Some msg :: _ =>
      (Raise (OperationalError msg), store)
  | None :: None :: Some msg :: _ =>
      (Raise (OperationalError msg), (store ++ [row])%list)
  | _ => (Return row, (store ++ [row])%list)
  end.
Proof.
  intros row.
  pose proof (find_inserted store (sc_barcode scan) utcnow) as Hfind.
  assert (Hrow : insert_row store (sc_barcode scan, utcnow)
                 = (store ++ [row])%list) by reflexivity.
  unfold request, create_scan, SessionLocal, commit, flush, add, refresh, ret.
  cbv beta delta [bind].
  destruct fs as [|[m1|] [|[m2|] [|[m3|] fs]]]; simpl;
    rewrite ?Hfind; simpl; rewrite ?Hrow; reflexivity.
Qed.


(** X2: when the INSERT and the COMMIT of a create go through and the
    refresh that follows fails, the request raises the engine's error,
    and yet the record is stored: the commit came first. *)
Theorem create_scan_refresh_failure_stores scan utcnow store fs msg :
  (exists fs', fs = None :: None :: Some msg :: fs') ->
  exists r,
    request (create_scan scan utcnow) store fs
    = (Raise (OperationalError msg), (store ++ [r])%list)
    /\ barcode r = sc_barcode scan /\ scanned_at r = utcnow
    /\ id r = next_id store.
Proof.
  intros [fs' ->]. eexists. rewrite request_create_scan_faults.
  split; [reflexivity|]. repeat split.
Qed.

(** X3: whatever storage failures a create meets, the table it leaves is
    the table before, or the table before with the one new record at its
    end; and the request returns a record only in the second case. *)
Theorem create_scan_stores_at_most_one scan utcnow store fs :
  let row := mk_ScanDB (next_id store) (sc_barcode scan) utcnow in
  let result := request (create_scan scan utcnow) store fs in
  (snd result = store \/ snd result = (store ++ [row])%list)
  /\ (forall r, fst result = Return r ->
        r = row /\ snd result = (store ++ [row])%list).
Proof.
  intros row result. unfold result. rewrite request_create_scan_faults.
  fold row.
  destruct fs as [|[m1|] [|[m2|] [|[m3|] fs]]]; simpl; split; auto;
    intros r Hr; inversion Hr; auto.
Qed.

(** ** Delete-all under storage failures *)

(** X4: whatever storage failures a delete-all meets, it either returns
    the message with the number of records and leaves the table empty, or
    raises the error 500 and leaves the table as it was: no part of the
    records is ever deleted, and no other error is raised. *)
Theorem delete_all_all_or_nothing store fs :
  request delete_all_scans store fs
    = (Return (deleted_message (List.length store)), [])
  \/ exists msg,
       request delete_all_scans store fs
       = (Raise (HTTPException 500 ("Failed to delete records: " ++ msg)), store).
Proof.
  rewrite request_delete_all_scans.
  destruct fs as [|[m1|] [|[m2|] fs]]; eauto.
Qed.

(** ** The ids of a reachable table *)

Lemma fold_max_le a b t :
  a <= b -> (forall r, In r t -> id r <= b) ->
  fold_right (fun r' m => Z.max (id r') m) a t <= b.
Proof.
  intros Ha. induction t as [|x t IH]; intros Ht; simpl; [exact Ha|].
  assert (id x <= b) by (apply Ht; now left).
  assert (fold_right (fun r' m => Z.max (id r') m) a t <= b)
    by (apply IH; intros r Hr; apply Ht; now right).
  lia.
Qed.

Lemma next_id_consecutive store :
  map id store = map Z.of_nat (seq 1 (List.length store)) ->
  next_id store = Z.of_nat (S (List.length store)).
Proof.
  intros Hids. destruct store as [|x t]; [reflexivity|].
  set (n := List.length (x :: t)) in *.
  assert (Hle : forall r, In r (x :: t) -> id r <= Z.of_nat n).
  { intros r Hr. apply (in_map id) in Hr. rewrite Hids in Hr.
    apply in_map_iff in Hr. destruct Hr as (k & <- & Hk).
    apply in_seq in Hk. lia. }
  assert (Hge : exists r, In r (x :: t) /\ id r = Z.of_nat n).
  { assert (Hn : In (Z.of_nat n) (map id (x :: t))).
    { rewrite Hids. apply in_map. apply in_seq. subst n; simpl; lia. }
    apply in_map_iff in Hn. destruct Hn as (r & Hr & Hin). now exists r. }
  unfold next_id.
  destruct (fold_max_ge (id x) t) as [Ha Ht].
  assert (fold_right (fun r' m => Z.max (id r') m) (id x) t <= Z.of_nat n).
  { apply fold_max_le; [apply Hle; now left|].
    intros r Hr. apply Hle. now right. }
  destruct Hge as (r & [<-|Hr] & Hid); [lia|].
  specialize (Ht r Hr). lia.
Qed.

Section Reachable.
Context {E : Engine}.

Lemma after_reads_store skip limit_ sd ed bq fs store :
  after (OpList skip limit_ sd ed bq) fs store = store
  /\ after (OpExport sd ed bq) fs store = store.
Proof.
  unfold after, request. rewrite read_scans_run, export_scans_run.
  unfold engine_call, SessionLocal; simpl.
  destruct fs as [|[msg|] fs]; simpl; split; reflexivity.
Qed.

Lemma reachable_ids_seq store :
  reachable store ->
  map id store = map Z.of_nat (seq 1 (List.length store)).
Proof.
  intros Hr.
  induction Hr as [|op fs store Hr IH]; [reflexivity|].
  destruct op as [scan utcnow|skip limit_ sd ed bq|sd ed bq|].
  - unfold after.
    assert (Hs : snd (request (create_scan scan utcnow) store fs) = store
                 \/ snd (request (create_scan scan utcnow) store fs)
                    = (store ++ [mk_ScanDB (next_id store) (sc_barcode scan)
                                   utcnow])%list).
    { rewrite request_create_scan_faults.
      destruct fs as [|[m1|] [|[m2|] [|[m3|] fs]]]; simpl; auto. }
    destruct Hs as [Hs|Hs]; rewrite Hs; [exact IH|].
    rewrite map_app, length_app, IH. simpl.
    rewrite next_id_consecutive by exact IH.
    replace (List.length store + 1)%nat with (S (List.length store)) by lia.
    rewrite seq_S, map_app. reflexivity.
  - now rewrite (proj1 (after_reads_store skip limit_ sd ed bq fs store)).
  - now rewrite (proj2 (after_reads_store 0 0 sd ed bq fs store)).
  - unfold after. rewrite request_delete_all_scans.
    destruct fs as [|[m1|] [|[m2|] fs]]; simpl; solve [reflexivity|exact IH].
Qed.

Lemma reachable_ids_NoDup store : reachable store -> NoDup (map id store).
Proof.
  intros Hr. rewrite (reachable_ids_seq store Hr).
  apply Finite.Injective_map_NoDup; [|apply seq_NoDup].
  intros a b Hab. lia.
Qed.

(** X5: in every table that requests can leave behind, starting from the
    empty table and whatever storage failures they meet, the ids of the
    records are 1, 2, ..., n in the order of the table; so they are
    pairwise distinct, and the next scan created takes the id n + 1. *)
Theorem reachable_ids_consecutive store :
  reachable store ->
  map id store = map Z.of_nat (seq 1 (List.length store))
  /\ NoDup (map id store)
  /\ next_id store = Z.of_nat (List.length store) + 1.
Proof.
  intros Hr. pose proof (reachable_ids_seq store Hr) as Hids.
  split; [exact Hids|]. split; [now apply reachable_ids_NoDup|].
  rewrite next_id_consecutive by exact Hids. lia.
Qed.

Lemma NoDup_map_filter {A B} (f : A -> B) (p : A -> bool) l :
  NoDup (map f l) -> NoDup (map f (filter p l)).
Proof.
  induction l as [|x l IH]; simpl; intros Hn; [constructor|].
  inversion Hn as [|? ? Hx Hl]; subst.
  destruct (p x); simpl; [constructor|]; auto.
  intros Hin. apply Hx. apply in_map_iff in Hin.
  destruct Hin as (y & Hy & Hin). apply filter_In in Hin.
  rewrite <- Hy. apply in_map. tauto.
Qed.

Lemma NoDup_firstn_skipn {A} n (l : list A) :
  NoDup l -> NoDup (firstn n l) /\ NoDup (skipn n l).
Proof.
  intros Hn. rewrite <- (firstn_skipn n l) in Hn.
  split; [eapply NoDup_app_remove_r|eapply NoDup_app_remove_l]; exact Hn.
Qed.

(** X17: on a table that requests can leave behind, no list request
    returns a record twice: the ids of the records returned are pairwise
    distinct, whatever the filters and the pagination. *)
Theorem read_scans_no_duplicates store skip limit_ sd ed bq :
  reachable store ->
  exists scans,
    request (read_scans skip limit_ sd ed bq) store [] = (Return scans, store)
    /\ NoDup (map id scans).
Proof.
  intros Hr. eexists. split; [apply request_read_scans|].
  assert (Hs : NoDup (map id (order_by_scanned_at_desc (filtered sd ed bq store)))).
  { apply (Permutation_NoDup
             (Permutation_map id (order_by_perm (filtered sd ed bq store)))).
    apply NoDup_map_filter. now apply reachable_ids_NoDup. }
  unfold page, apply_limit, apply_offset.
  assert (Hk : NoDup (map id (skipn (Z.to_nat skip)
                 (order_by_scanned_at_desc (filtered sd ed bq store))))).
  { rewrite <- skipn_map. now apply NoDup_firstn_skipn. }
  destruct (limit_ <? 0); [exact Hk|].
  rewrite <- firstn_map. now apply NoDup_firstn_skipn.
Qed.

End Reachable.

(** ** Pagination *)

Lemma firstn_add_skipn {A} (n m : nat) (l : list A) :
  (firstn n l ++ firstn m (skipn n l))%list = firstn (n + m) l.
Proof.
  revert l. induction n as [|n IH]; intros l; [reflexivity|].
  destruct l as [|x l]; simpl; [now rewrite firstn_nil|].
  now rewrite IH.
Qed.

Section Pagination.
Context {E : Engine}.

(** X6: on one stored table, the page of [n] records from [skip] on,
    followed by the page of [m] records from [skip + n] on, is the page of
    [n + m] records from [skip] on ([skip], [n] and [m] not negative):
    successive pages neither overlap nor leave a gap. *)
Theorem read_scans_pages_concatenate store skip n m sd ed bq :
  0 <= skip -> 0 <= n -> 0 <= m ->
  exists p1 p2,
    request (read_scans skip n sd ed bq) store [] = (Return p1, store)
    /\ request (read_scans (skip + n) m sd ed bq) store [] = (Return p2, store)
    /\ request (read_scans skip (n + m) sd ed bq) store []
       = (Return (p1 ++ p2)%list, store).
Proof.
  intros Hs Hn Hm. do 2 eexists.
  split; [apply request_read_scans|].
  split; [apply request_read_scans|].
  rewrite request_read_scans. do 2 f_equal.
  unfold page, apply_limit, apply_offset.
  destruct (Z.ltb_spec n 0); [lia|].
  destruct (Z.ltb_spec m 0); [lia|].
  destruct (Z.ltb_spec (n + m) 0); [lia|].
  replace (Z.to_nat (skip + n)) with (Z.to_nat n + Z.to_nat skip)%nat by lia.
  replace (Z.to_nat (n + m)) with (Z.to_nat n + Z.to_nat m)%nat by lia.
  rewrite <- skipn_skipn. symmetry. apply firstn_add_skipn.
Qed.

(** X7: the number of records a list request returns, for every [skip]
    and [limit]: of the [size] records that pass the filters, those past
    the first [skip] (a negative [skip] counting as 0) are available, and
    the page holds all of them when [limit] is negative and at most
    [limit] of them otherwise. *)
Theorem read_scans_page_size store skip limit_ sd ed bq :
  exists scans,
    request (read_scans skip limit_ sd ed bq) store [] = (Return scans, store)
    /\ let size := Z.of_nat (List.length (filtered sd ed bq store)) in
       let available := Z.max 0 (size - Z.max 0 skip) in
       Z.of_nat (List.length scans)
       = if limit_ <? 0 then available else Z.min limit_ available.
Proof.
  eexists. split; [apply request_read_scans|].
  cbv zeta. unfold page, apply_limit, apply_offset.
  destruct (Z.ltb_spec limit_ 0).
  - rewrite length_skipn, order_by_length. lia.
  - rewrite length_firstn, length_skipn, order_by_length. lia.
Qed.

(** X8: an empty [barcode] argument is no filter: for every stored table
    and every storage failure, listing and exporting with [barcode] empty
    answer as they do with no [barcode] at all. *)
Theorem empty_barcode_is_no_filter store fs skip limit_ sd ed :
  request (read_scans skip limit_ sd ed (Some EmptyString)) store fs
  = request (read_scans skip limit_ sd ed None) store fs
  /\ request (export_scans sd ed (Some EmptyString)) store fs
     = request (export_scans sd ed None) store fs.
Proof.
  unfold request. rewrite !read_scans_run, !export_scans_run.
  split; reflexivity.
Qed.

(** X9: when the SELECT of a list or of an export fails, the request
    raises the engine's error as it is: the export does not answer 404
    for a result it could not read. *)
Theorem read_failure_is_raised store fs msg skip limit_ sd ed bq :
  (exists fs', fs = Some msg :: fs') ->
  request (read_scans skip limit_ sd ed bq) store fs
  = (Raise (OperationalError msg), store)
  /\ request (export_scans sd ed bq) store fs
     = (Raise (OperationalError msg), store).
Proof.
  intros [fs' ->]. unfold request.
  rewrite read_scans_run, export_scans_run. split; reflexivity.
Qed.

End Pagination.

(** ** LIKE: literal occurrences and the case of letters *)


Lemma like_char c p s :
  Ascii.eqb c matchAll = false ->
  like (c :: p) s =
  match s with
  | [] => false
  | c2 :: s' =>
      (Ascii.eqb c c2 || Ascii.eqb (sqlite3Tolower c) (sqlite3Tolower c2)
       || Ascii.eqb c matchOne) && like p s'
  end.
Proof. intros H. simpl. rewrite H. reflexivity. Qed.



Lemma sqlite3Tolower_idem c : sqlite3Tolower (sqlite3Tolower c) = sqlite3Tolower c.
Proof. destruct c as [[] [] [] [] [] [] [] []]; reflexivity. Qed.

Lemma sqlite3Tolower_matchAll c :
  Ascii.eqb (sqlite3Tolower c) matchAll = Ascii.eqb c matchAll.
Proof. destruct c as [[] [] [] [] [] [] [] []]; reflexivity. Qed.

Lemma sqlite3Tolower_matchOne c :
  Ascii.eqb (sqlite3Tolower c) matchOne = Ascii.eqb c matchOne.
Proof. destruct c as [[] [] [] [] [] [] [] []]; reflexivity. Qed.

Lemma like_folded p : forall s,
  like (map sqlite3Tolower p) (map sqlite3Tolower s) = like p s.
Proof.
  induction p as [|c p IH]; intros s.
  - destruct s; reflexivity.
  - simpl map. destruct (Ascii.eqb c matchAll) eqn:Hall.
    + apply Ascii.eqb_eq in Hall. subst c.
      change (sqlite3Tolower matchAll) with matchAll.
      induction s as [|d s IHs]; simpl map.
      * rewrite (like_matchAll_cons (map sqlite3Tolower p) []),
          (like_matchAll_cons p []).
        f_equal. exact (IH []).
      * rewrite (like_matchAll_cons (map sqlite3Tolower p) (_ :: _)),
          (like_matchAll_cons p (d :: s)).
        rewrite IHs. f_equal. exact (IH (d :: s)).
    + rewrite (like_char c p s Hall).
      rewrite (like_char (sqlite3Tolower c))
        by (rewrite sqlite3Tolower_matchAll; exact Hall).
      destruct s as [|d s]; [reflexivity|]. cbn [map].
      rewrite IH, !sqlite3Tolower_idem, sqlite3Tolower_matchOne.
      f_equal. f_equal.
      destruct (Ascii.eqb_spec c d) as [->|_].
      * now rewrite Ascii.eqb_refl.
      * apply orb_diag.
Qed.

Lemma contains_folded b q :
  contains b q = like (matchAll :: folded q ++ [matchAll]) (folded b).
Proof.
  unfold contains, folded. rewrite <- like_folded.
  simpl map. rewrite map_app. reflexivity.
Qed.

Lemma passes_case_blind sd ed q q' r :
  folded q = folded q' ->
  passes sd ed (Some q) r = passes sd ed (Some q') r.
Proof.
  intros Hq. unfold passes. f_equal.
  destruct q as [|c q], q' as [|c' q']; try discriminate Hq; [reflexivity|].
  now rewrite !contains_folded, Hq.
Qed.

Section BarcodeFilter.
Context {E : Engine}.


(** X11: the barcode filter is blind to the case of ASCII letters, in
    the filter and in the barcodes alike: two filters that differ in case
    only match the same barcodes, a filter matches two barcodes that
    differ in case only alike, and list and export requests that differ
    in the case of the filter only answer alike. *)
Theorem barcode_filter_case_blind q q' :
  folded q = folded q' ->
  (forall b b', folded b = folded b' -> contains b q = contains b' q')
  /\ (forall store fs skip limit_ sd ed,
        request (read_scans skip limit_ sd ed (Some q)) store fs
        = request (read_scans skip limit_ sd ed (Some q')) store fs)
  /\ (forall store fs sd ed,
        request (export_scans sd ed (Some q)) store fs
        = request (export_scans sd ed (Some q')) store fs).
Proof.
  intros Hq.
  assert (Hf : forall sd ed t,
             filtered sd ed (Some q) t = filtered sd ed (Some q') t).
  { intros sd ed t. apply filter_ext. intros r. now apply passes_case_blind. }
  split; [|split].
  - intros b b' Hb. now rewrite !contains_folded, Hq, Hb.
  - intros store fs skip limit_ sd ed. unfold request.
    rewrite !read_scans_run. unfold page.
    destruct (engine_call (SessionLocal store fs)) as [[[]|e] s'];
      [rewrite Hf|]; reflexivity.
  - intros store fs sd ed. unfold request. rewrite !export_scans_run.
    destruct (engine_call (SessionLocal store fs)) as [[[]|e] s'];
      [rewrite Hf|]; reflexivity.
Qed.

End BarcodeFilter.

(** ** Date ranges side by side *)

Lemma filter_split {A} (p q pq : A -> bool) l :
  (forall x, pq x = p x || q x) -> (forall x, p x && q x = false) ->
  Permutation (filter pq l) (filter p l ++ filter q l).
Proof.
  intros Hor Hdis. induction l as [|x l IH]; simpl; [constructor|].
  rewrite Hor. specialize (Hdis x).
  destruct (p x), (q x); simpl in *; try discriminate.
  - now apply perm_skip.
  - now apply Permutation_cons_app.
  - exact IH.
Qed.

Lemma ranges_split T1 T2 T3 bq r :
  dt_le T1 T2 -> dt_le T2 T3 ->
  passes (Some T1) (Some T3) bq r
  = passes (Some T1) (Some T2) bq r || passes (Some T2) (Some T3) bq r
  /\ passes (Some T1) (Some T2) bq r && passes (Some T2) (Some T3) bq r = false.
Proof.
  unfold dt_le, passes, dt_geb. intros H12 H23.
  rewrite !dt_ltb_leb.
  destruct (dt_leb T1 (scanned_at r)) eqn:H1,
           (dt_leb T2 (scanned_at r)) eqn:H2,
           (dt_leb T3 (scanned_at r)) eqn:H3;
    simpl; rewrite ?andb_false_r, ?orb_false_r, ?orb_diag; auto;
    try (rewrite (dt_leb_trans _ _ _ H12 H2) in H1; discriminate);
    try (rewrite (dt_leb_trans _ _ _ H23 H3) in H2; discriminate);
    destruct (match bq with Some (String _ _ as q) => contains (barcode r) q
                       | _ => true end); auto.
Qed.

Section Ranges.
Context {E : Engine}.

(** X12: date ranges that share a bound tile: for [T1 <= T2 <= T3] and
    one barcode filter, the lists (pagination not cutting: skip 0, limit
    negative) for [T1, T2) and for [T2, T3) have no record in common, and
    together hold exactly the records of the list for [T1, T3). *)
Theorem adjacent_ranges_tile store T1 T2 T3 bq :
  dt_le T1 T2 -> dt_le T2 T3 ->
  exists a b c,
    request (read_scans 0 (-1) (Some T1) (Some T2) bq) store [] = (Return a, store)
    /\ request (read_scans 0 (-1) (Some T2) (Some T3) bq) store [] = (Return b, store)
    /\ request (read_scans 0 (-1) (Some T1) (Some T3) bq) store [] = (Return c, store)
    /\ Permutation c (a ++ b)
    /\ (forall r, In r a -> In r b -> False).
Proof.
  intros H12 H23. do 3 eexists.
  split; [apply request_read_scans|].
  split; [apply request_read_scans|].
  split; [apply request_read_scans|].
  rewrite !page_whole by lia. split.
  - rewrite <- !order_by_perm. unfold filtered. apply filter_split.
    + intros r. now apply ranges_split.
    + intros r. now apply (ranges_split T1 T2 T3).
  - intros r Ha Hb.
    apply (Permutation_in _ (Permutation_sym (order_by_perm _))) in Ha, Hb.
    apply filter_In in Ha, Hb. destruct Ha as [_ Ha], Hb as [_ Hb].
    destruct (ranges_split T1 T2 T3 bq r H12 H23) as [_ Hd].
    rewrite Ha, Hb in Hd. discriminate.
Qed.

End Ranges.

(** ** The newest scan *)

Lemma filtered_none t : filtered None None None t = t.
Proof.
  unfold filtered. induction t as [|x t IH]; simpl; [reflexivity|].
  now rewrite IH.
Qed.

Section Newest.
Context {E : Engine}.

(** X13: a scan created at a time later than that of every stored record
    heads the list that follows, whatever order the engine gives to ties:
    listing with no filters, skip 0 and a limit other than 0 returns the
    created record first. *)
Theorem newest_scan_is_listed_first store scan utcnow limit_ :
  limit_ <> 0 ->
  (forall r', In r' store -> dt_lt (scanned_at r') utcnow) ->
  exists r store' rest,
    request (create_scan scan utcnow) store [] = (Return r, store')
    /\ scanned_at r = utcnow
    /\ request (read_scans 0 limit_ None None None) store' []
       = (Return (r :: rest), store').
Proof.
  intros Hl Hnew.
  set (r := mk_ScanDB (next_id store) (sc_barcode scan) utcnow).
  pose proof (order_by_perm (store ++ [r])%list) as Hp.
  pose proof (order_by_sorted (store ++ [r])%list) as Hs.
  destruct (order_by_scanned_at_desc (store ++ [r])%list) as [|h tl] eqn:Ho.
  { apply Permutation_length in Hp. rewrite length_app in Hp.
    simpl in Hp. lia. }
  assert (Hh : h = r).
  { assert (Hin : In h (store ++ [r])%list)
      by (apply (Permutation_in _ (Permutation_sym Hp)); now left).
    apply in_app_or in Hin. destruct Hin as [Hin|[Hin|[]]]; [|now symmetry].
    assert (Hr : In r (h :: tl))
      by (apply (Permutation_in _ Hp), in_or_app; right; now left).
    destruct Hr as [Hr|Hr]; [exact Hr|].
    inversion Hs as [|? ? _ Hall]; subst.
    rewrite Forall_forall in Hall. specialize (Hall r Hr).
    specialize (Hnew h Hin). unfold desc, dt_le, dt_lt in *. simpl in Hall.
    rewrite dt_ltb_leb, Hall in Hnew. discriminate. }
  subst h.
  exists r, (store ++ [r])%list,
    (if limit_ <? 0 then tl else firstn (Z.to_nat limit_ - 1) tl).
  split; [apply request_create_scan|]. split; [reflexivity|].
  rewrite request_read_scans. do 2 f_equal.
  unfold page. rewrite filtered_none, Ho. unfold apply_limit, apply_offset.
  simpl skipn. destruct (Z.ltb_spec limit_ 0); [reflexivity|].
  destruct (Z.to_nat limit_) as [|k] eqn:Hk; [lia|].
  simpl. now rewrite Nat.sub_0_r.
Qed.

(** X14: the filters of a list request combine as a conjunction: every
    record returned is stored and passes each filter that was supplied
    ([start_date] inclusive, [end_date] exclusive, a non-empty [barcode]
    by LIKE); and when pagination does not cut the result, every stored
    record that passes them all is returned. *)
Theorem read_scans_filters_conjunctive store skip limit_ sd ed bq :
  let ok r :=
    (forall t, sd = Some t -> dt_le t (scanned_at r))
    /\ (forall t, ed = Some t -> dt_lt (scanned_at r) t)
    /\ (forall q, bq = Some q -> q <> EmptyString ->
          contains (barcode r) q = true) in
  exists scans,
    request (read_scans skip limit_ sd ed bq) store [] = (Return scans, store)
    /\ (forall r, In r scans -> In r store /\ ok r)
    /\ (skip <= 0 ->
        limit_ < 0 \/ Z.of_nat (List.length (filtered sd ed bq store)) <= limit_ ->
        forall r, In r store -> ok r -> In r scans).
Proof.
  intros ok.
  assert (Hok : forall r, passes sd ed bq r = true <-> ok r).
  { intros r. unfold passes, ok, dt_le, dt_lt, dt_geb.
    rewrite !andb_true_iff. split.
    - intros [[H1 H2] H3]. repeat split.
      + intros t ->. exact H1.
      + intros t ->. exact H2.
      + intros q -> Hq. destruct q; [congruence|exact H3].
    - intros (H1 & H2 & H3). repeat split.
      + destruct sd; [now apply H1|reflexivity].
      + destruct ed; [now apply H2|reflexivity].
      + destruct bq as [[|c q]|]; try reflexivity.
        apply H3; [reflexivity|discriminate]. }
  eexists. split; [apply request_read_scans|]. split.
  - intros r Hr. apply page_In in Hr. destruct Hr as [Hr Hp].
    split; [exact Hr|now apply Hok].
  - intros Hs Hl r Hr Hr'. rewrite page_whole by assumption.
    apply (Permutation_in _ (order_by_perm _)).
    apply filter_In. split; [exact Hr|now apply Hok].
Qed.

End Newest.

(** ** Reading a formatted timestamp back *)

Lemma zero_pad2_value n :
  (n < 100)%N ->
  String.length (zero_pad 2 n) = 2%nat /\ digits_value (zero_pad 2 n) = n.
Proof.
  intros Hn.
  pose (P := fun n => Nat.eqb (String.length (zero_pad 2 n)) 2
                      && N.eqb (digits_value (zero_pad 2 n)) n).
  assert (H : P n = true).
  { apply (below_forallb P 100); [vm_compute; reflexivity|exact Hn]. }
  unfold P in H. apply andb_true_iff in H. destruct H as [H1 H2].
  split; [now apply Nat.eqb_eq|now apply N.eqb_eq].
Qed.

Lemma zero_pad4_value n :
  (n < 10000)%N ->
  String.length (zero_pad 4 n) = 4%nat /\ digits_value (zero_pad 4 n) = n.
Proof.
  intros Hn.
  pose (P := fun n => Nat.eqb (String.length (zero_pad 4 n)) 4
                      && N.eqb (digits_value (zero_pad 4 n)) n).
  assert (H : P n = true).
  { apply (below_forallb P 10000); [vm_compute; reflexivity|exact Hn]. }
  unfold P in H. apply andb_true_iff in H. destruct H as [H1 H2].
  split; [now apply Nat.eqb_eq|now apply N.eqb_eq].
Qed.

Lemma append_inj_length s1 : forall s2 t1 t2,
  String.length s1 = String.length s2 ->
  s1 ++ t1 = s2 ++ t2 -> s1 = s2 /\ t1 = t2.
Proof.
  induction s1 as [|c s1 IH]; intros [|d s2] t1 t2 Hlen Heq;
    simpl in *; try discriminate; [auto|].
  injection Heq as -> Heq. injection Hlen as Hlen.
  destruct (IH s2 t1 t2 Hlen Heq) as [-> ->]. auto.
Qed.

Lemma append_empty_r s : s ++ EmptyString = s.
Proof. induction s as [|c s IH]; simpl; [reflexivity|now rewrite IH]. Qed.

(** X15: the text the export writes for a timestamp tells the timestamp
    to the second: two well-formed timestamps are written alike exactly
    when they agree in year, month, day, hour, minute and second (the
    microseconds are not written). *)
Theorem strftime_to_the_second a b :
  valid_datetime a -> valid_datetime b ->
  (strftime a = strftime b <->
   year a = year b /\ month a = month b /\ day a = day b
   /\ hour a = hour b /\ minute a = minute b /\ second a = second b).
Proof.
  intros (Hya & Hmoa & Hda & Hha & Hmia & Hsa & _)
         (Hyb & Hmob & Hdb & Hhb & Hmib & Hsb & _).
  split.
  - unfold strftime. intros H.
    apply append_inj_length in H;
      [|rewrite (proj1 (zero_pad4_value (year a) ltac:(lia))),
          (proj1 (zero_pad4_value (year b) ltac:(lia))); reflexivity].
    destruct H as [Hy H]. apply (f_equal digits_value) in Hy.
    rewrite (proj2 (zero_pad4_value (year a) ltac:(lia))),
      (proj2 (zero_pad4_value (year b) ltac:(lia))) in Hy.
    simpl in H. injection H as H.
    assert (Hfield : forall x y t u,
               (x < 100)%N -> (y < 100)%N ->
               zero_pad 2 x ++ t = zero_pad 2 y ++ u -> x = y /\ t = u).
    { intros x y t u Hx Hy' Hxy.
      apply append_inj_length in Hxy;
        [|rewrite (proj1 (zero_pad2_value x Hx)),
            (proj1 (zero_pad2_value y Hy')); reflexivity].
      destruct Hxy as [Hxy Htu]. split; [|exact Htu].
      apply (f_equal digits_value) in Hxy.
      now rewrite (proj2 (zero_pad2_value x Hx)),
        (proj2 (zero_pad2_value y Hy')) in Hxy. }
    apply Hfield in H; [|lia|lia]. destruct H as [Hmo H].
    simpl in H. injection H as H.
    apply Hfield in H; [|lia|lia]. destruct H as [Hd H].
    simpl in H. injection H as H.
    apply Hfield in H; [|lia|lia]. destruct H as [Hh H].
    simpl in H. injection H as H.
    apply Hfield in H; [|lia|lia]. destruct H as [Hmi H].
    simpl in H. injection H as H.
    rewrite <- (append_empty_r (zero_pad 2 (second a))) in H.
    rewrite <- (append_empty_r (zero_pad 2 (second b))) in H.
    apply Hfield in H; [|lia|lia]. destruct H as [Hs _].
    repeat split; assumption.
  - intros (Hy & Hmo & Hd & Hh & Hmi & Hs). unfold strftime.
    now rewrite Hy, Hmo, Hd, Hh, Hmi, Hs.
Qed.

(** ** After a delete-all *)

(** X16: the ids start again after a delete-all: when a delete-all has
    succeeded, the next scan created takes the id 1, whatever ids the
    deleted records had. *)
Theorem id_restarts_after_delete_all store fs resp store' scan utcnow :
  request delete_all_scans store fs = (Return resp, store') ->
  exists r,
    request (create_scan scan utcnow) store' [] = (Return r, [r])
    /\ id r = 1 /\ barcode r = sc_barcode scan.
Proof.
  rewrite request_delete_all_scans.
  intros H. assert (Hs : store' = []).
  { destruct fs as [|[m1|] [|[m2|] fs]]; inversion H; reflexivity. }
  subst store'. eexists. rewrite request_create_scan.
  split; [reflexivity|]. split; reflexivity.
Qed.

(* ================================================================== *)
(** * Concrete runs of the further properties *)


(** X2 on the sample table: the refresh of a create fails. *)
Lemma create_scan_refresh_failure_stores_witness :
  exists r,
    request (create_scan (mk_ScanCreate "C7") (at_ 13 0 0)) three_scans
      [None; None; Some "database is locked"]
    = (Raise (OperationalError "database is locked"), (three_scans ++ [r])%list)
    /\ barcode r = "C7" /\ scanned_at r = at_ 13 0 0 /\ id r = next_id three_scans.
Proof.
  apply (create_scan_refresh_failure_stores (mk_ScanCreate "C7") (at_ 13 0 0)
           three_scans [None; None; Some "database is locked"]
           "database is locked").
  exists []. reflexivity.
Defined.

(** The sample table is what three creates leave behind. *)
Lemma three_scans_reachable : reachable (E := insertion_engine) three_scans.
Proof.
  change three_scans with
    (after (E := insertion_engine)
       (OpCreate (mk_ScanCreate "B1") (at_ 12 0 0)) []
       (after (E := insertion_engine)
          (OpCreate (mk_ScanCreate "A2") (at_ 11 0 0)) []
          (after (E := insertion_engine)
             (OpCreate (mk_ScanCreate "A1") (at_ 10 0 0)) [] []))).
  repeat constructor.
Defined.

(** X5 on the sample table. *)
Lemma reachable_ids_consecutive_witness :
  reachable (E := insertion_engine) three_scans
  /\ map id three_scans = [1; 2; 3]
  /\ NoDup (map id three_scans)
  /\ next_id three_scans = 4.
Proof.
  split; [exact three_scans_reachable|].
  exact (reachable_ids_consecutive (E := insertion_engine) three_scans
           three_scans_reachable).
Defined.

(** X6 on the sample table: a page of one, then a page of two. *)
Lemma read_scans_pages_concatenate_witness :
  exists p1 p2,
    request (read_scans (E := insertion_engine) 0 1 None None None)
      three_scans [] = (Return p1, three_scans)
    /\ request (read_scans (E := insertion_engine) (0 + 1) 2 None None None)
         three_scans [] = (Return p2, three_scans)
    /\ request (read_scans (E := insertion_engine) 0 (1 + 2) None None None)
         three_scans [] = (Return (p1 ++ p2)%list, three_scans).
Proof.
  apply (read_scans_pages_concatenate (E := insertion_engine)
           three_scans 0 1 2 None None None); lia.
Defined.

(** X9 on the sample table: the SELECT fails. *)
Lemma read_failure_is_raised_witness :
  request (read_scans (E := insertion_engine) 0 100 None None None)
    three_scans [Some "database is locked"]
  = (Raise (OperationalError "database is locked"), three_scans)
  /\ request (export_scans (E := insertion_engine) None None None)
       three_scans [Some "database is locked"]
     = (Raise (OperationalError "database is locked"), three_scans).
Proof.
  apply (read_failure_is_raised (E := insertion_engine) three_scans
           [Some "database is locked"] "database is locked").
  exists []. reflexivity.
Defined.


(** X11: the filters [a1] and [A1] answer alike on the sample table. *)
Lemma barcode_filter_case_blind_witness :
  folded "a1" = folded "A1"
  /\ request (read_scans (E := insertion_engine) 0 100 None None (Some "a1"))
       three_scans []
     = request (read_scans (E := insertion_engine) 0 100 None None (Some "A1"))
         three_scans [].
Proof.
  assert (H : folded "a1" = folded "A1") by reflexivity.
  split; [exact H|].
  exact (proj1 (proj2 (barcode_filter_case_blind (E := insertion_engine)
                         "a1" "A1" H))
           three_scans [] 0 100 None None).
Defined.

(** X12 on the sample table: from 10:00 to 11:00, from 11:00 to 13:00. *)
Lemma adjacent_ranges_tile_witness :
  dt_le (at_ 10 0 0) (at_ 11 0 0) /\ dt_le (at_ 11 0 0) (at_ 13 0 0)
  /\ exists a b c,
       request (read_scans (E := insertion_engine) 0 (-1)
                  (Some (at_ 10 0 0)) (Some (at_ 11 0 0)) None)
         three_scans [] = (Return a, three_scans)
       /\ request (read_scans (E := insertion_engine) 0 (-1)
                     (Some (at_ 11 0 0)) (Some (at_ 13 0 0)) None)
            three_scans [] = (Return b, three_scans)
       /\ request (read_scans (E := insertion_engine) 0 (-1)
                     (Some (at_ 10 0 0)) (Some (at_ 13 0 0)) None)
            three_scans [] = (Return c, three_scans)
       /\ Permutation c (a ++ b)
       /\ (forall r, In r a -> In r b -> False).
Proof.
  assert (H1 : dt_le (at_ 10 0 0) (at_ 11 0 0)) by reflexivity.
  assert (H2 : dt_le (at_ 11 0 0) (at_ 13 0 0)) by reflexivity.
  split; [exact H1|]. split; [exact H2|].
  exact (adjacent_ranges_tile (E := insertion_engine) three_scans
           (at_ 10 0 0) (at_ 11 0 0) (at_ 13 0 0) None H1 H2).
Defined.

Lemma three_scans_before_13 :
  forall r', In r' three_scans -> dt_lt (scanned_at r') (at_ 13 0 0).
Proof.
  intros r' [<-|[<-|[<-|[]]]]; reflexivity.
Defined.

(** X13 on the sample table: a scan at 13:00, listed with limit 1. *)
Lemma newest_scan_is_listed_first_witness :
  exists r store' rest,
    request (create_scan (mk_ScanCreate "C7") (at_ 13 0 0)) three_scans []
      = (Return r, store')
    /\ scanned_at r = at_ 13 0 0
    /\ request (read_scans (E := insertion_engine) 0 1 None None None) store' []
       = (Return (r :: rest), store').
Proof.
  apply (newest_scan_is_listed_first (E := insertion_engine) three_scans
           (mk_ScanCreate "C7") (at_ 13 0 0) 1).
  - discriminate.
  - exact three_scans_before_13.
Defined.

(** X14 on the sample table: a date range and a barcode together. *)
Lemma read_scans_filters_conjunctive_witness :
  exists scans,
    request (read_scans (E := insertion_engine) 0 (-1)
               (Some (at_ 11 0 0)) (Some (at_ 13 0 0)) (Some "a"))
      three_scans [] = (Return scans, three_scans)
    /\ In (mk_ScanDB 2 "A2" (at_ 11 0 0)) scans.
Proof.
  destruct (read_scans_filters_conjunctive (E := insertion_engine)
              three_scans 0 (-1) (Some (at_ 11 0 0)) (Some (at_ 13 0 0))
              (Some "a"))
    as (scans & Hrun & _ & Hall).
  exists scans. split; [exact Hrun|].
  apply Hall.
  - lia.
  - left. lia.
  - right. left. reflexivity.
  - repeat split.
    + intros t Ht. injection Ht as <-. reflexivity.
    + intros t Ht. injection Ht as <-. reflexivity.
    + intros q Hq _. injection Hq as <-. reflexivity.
Defined.

Lemma at_valid h mi s :
  (h < 24)%N -> (mi < 60)%N -> (s < 60)%N -> valid_datetime (at_ h mi s).
Proof. intros. unfold valid_datetime; simpl. lia. Defined.

(** X15: 10:00:00 and 10:00:01. *)
Lemma strftime_to_the_second_witness :
  valid_datetime (at_ 10 0 0) /\ valid_datetime (at_ 10 0 1)
  /\ strftime (at_ 10 0 0) <> strftime (at_ 10 0 1).
Proof.
  assert (Ha : valid_datetime (at_ 10 0 0)) by (apply at_valid; lia).
  assert (Hb : valid_datetime (at_ 10 0 1)) by (apply at_valid; lia).
  split; [exact Ha|]. split; [exact Hb|].
  intros Heq.
  apply (proj1 (strftime_to_the_second (at_ 10 0 0) (at_ 10 0 1) Ha Hb)) in Heq.
  destruct Heq as (_ & _ & _ & _ & _ & Hs). discriminate Hs.
Defined.

(** X16 on the sample table. *)
Lemma id_restarts_after_delete_all_witness :
  request delete_all_scans three_scans [] = (Return (deleted_message 3), [])
  /\ exists r,
       request (create_scan (mk_ScanCreate "C7") (at_ 13 0 0)) [] []
       = (Return r, [r])
       /\ id r = 1 /\ barcode r = "C7".
Proof.
  assert (H : request delete_all_scans three_scans []
              = (Return (deleted_message 3), [])) by reflexivity.
  split; [exact H|].
  exact (id_restarts_after_delete_all three_scans [] (deleted_message 3) []
           (mk_ScanCreate "C7") (at_ 13 0 0) H).
Defined.

(** X17 on the sample table. *)
Lemma read_scans_no_duplicates_witness :
  exists scans,
    request (read_scans (E := insertion_engine) 0 100 None None None)
      three_scans [] = (Return scans, three_scans)
    /\ NoDup (map id scans).
Proof.
  exact (read_scans_no_duplicates (E := insertion_engine) three_scans 0 100
           None None None three_scans_reachable).
Defined.
